(** * LocalTrack: one row of the timeline, nested under a process

    A shallow embedding of [src/components/timeline/LocalTrack.js]:
    the state-to-props mapping [mapStateToProps], the dispatch renderer
    [renderTrack], the component's [render], its three event handlers
    and [componentDidMount].

    JavaScript values that the code compares with [===] are kept as a
    small sum type; a [switch] over string tags is an if-chain over
    [String.eqb] in the order of the source's [case] labels; a [throw]
    is the [Throw] branch of a completion; calls that reach outside the
    component (redux action creators, the parent's callback,
    [console.error]) are entries of an effect log. *)

From Stdlib Require Import ZArith String List Bool Lia.
From stdpp Require Import base decidable gmap sets strings list.

Import ListNotations.
Set Warnings "-register-all".
Local Open Scope string_scope.
Local Open Scope list_scope.
Local Open Scope Z_scope.

(** ** JavaScript values and strict equality *)

Inductive value :=
| VUndefined
| VNull
| VBoolean (b : bool)
| VNumber (n : Z)
| VString (s : string).

(** [a === b]: no coercion, values of different types are never equal. *)
Definition strict_equals (a b : value) : bool :=
  match a, b with
  | VUndefined, VUndefined => true
  | VNull, VNull => true
  | VBoolean x, VBoolean y => Bool.eqb x y
  | VNumber x, VNumber y => Z.eqb x y
  | VString x, VString y => String.eqb x y
  | _, _ => false
  end.

(** What a [throw] carries: an [Error] object built by a callee, or the
    value handed to the [throw] statement itself. *)
Inductive exn :=
| Error (message : string)
| Thrown (v : value).

Inductive completion (A : Type) :=
| Normal (a : A)
| Throw (e : exn).
Arguments Normal {A} a.
Arguments Throw {A} e.

Definition bind_completion {A B} (c : completion A) (k : A -> completion B)
  : completion B :=
  match c with
  | Normal a => k a
  | Throw e => Throw e
  end.

Definition returns {A} (c : completion A) : Prop := exists a, c = Normal a.
Definition throws {A} (c : completion A) : Prop := exists e, c = Throw e.

(** ** Index types *)

Definition ThreadIndex := Z.
Definition CounterIndex := Z.
Definition TrackIndex := Z.

(** [Set.prototype.has] on a set of numbers. *)
Definition has (s : gset Z) (x : Z) : bool := bool_decide (x ∈ s).

(** The tab slugs the component compares against. *)
Definition network_chart : string := "network-chart".
Definition marker_chart : string := "marker-chart".

(** The nine tags of the [LocalTrack] union, in the order of the
    renderer's [case] labels. *)
Definition local_track_types : list string :=
  [ "thread"; "network"; "memory"; "bandwidth"; "ipc";
    "event-delay"; "process-cpu"; "power"; "marker" ].

Definition known_type (ty : string) : bool :=
  existsb (String.eqb ty) local_track_types.

(** ** Imported types

    Types the file imports and never inspects. *)
Class Types := {
  Pid : Type;
  State : Type;
  MarkerSchema : Type;
  Style : Type;
}.

Section Descriptor.
Context {types : Types}.

(** A descriptor is the object the component reads [type],
    [threadIndex], [counterIndex], [markerSchema] and [markerName]
    from.  Each branch of the two switches reads only the fields of
    its own variant, so the fields of the other variants are
    irrelevant to it.  The tag is an arbitrary string: both switches
    have a [default] branch for tags outside the union. *)
Record LocalTrack := mkLocalTrack {
  type : string;
  threadIndex : ThreadIndex;
  counterIndex : CounterIndex;
  markerSchema : MarkerSchema;
  markerName : string;
}.

Record OwnProps := mkOwnProps {
  pid : Pid;
  localTrack : LocalTrack;
  trackIndex : TrackIndex;
  style : option Style;
}.

Record StateProps := mkStateProps {
  trackName : string;
  isSelected : bool;
  isHidden : bool;
  titleText : option string;
}.

(** The props the connected component receives: its own props merged
    with the result of [mapStateToProps]. *)
Record Props := mkProps {
  own :> OwnProps;
  derived :> StateProps;
}.

(** [{ type: 'local', pid, trackIndex }] *)
Record TrackReference := mkTrackReference {
  ref_type : string;
  ref_pid : Pid;
  ref_trackIndex : TrackIndex;
}.

(** [{ multi, range }], the result of [getTrackSelectionModifiers]. *)
Record Modifiers := mkModifiers {
  multi : bool;
  range : bool;
}.

(** The part of a synthetic event the handlers touch: the modifier
    keys read by [getTrackSelectionModifiers] and the flag set by
    [stopPropagation()]. *)
Record SyntheticEvent := mkSyntheticEvent {
  ctrlKey : bool;
  metaKey : bool;
  shiftKey : bool;
  propagationStopped : bool;
}.

Definition stopPropagation (event : SyntheticEvent) : SyntheticEvent :=
  {| ctrlKey := ctrlKey event;
     metaKey := metaKey event;
     shiftKey := shiftKey event;
     propagationStopped := true |}.

End Descriptor.

(** ** Imported functions

    The selectors read by [mapStateToProps] and the two helpers the file
    calls. *)
Class Imports {types : Types} := {
  getSelectedThreadIndexes : State -> gset ThreadIndex;
  getSelectedTab : State -> string;
  getHiddenLocalTracks : State -> Pid -> gset TrackIndex;
  getLocalTrackName : State -> Pid -> TrackIndex -> string;
  (** [getThreadSelectors(threadIndex).getThreadProcessDetails(state)] *)
  getThreadProcessDetails : ThreadIndex -> State -> string;
  (** [getCounterSelectors(counterIndex).getDescription(state)] *)
  getDescription : CounterIndex -> State -> string;
  (** [assertExhaustiveCheck(notValid, errorMessage)]: whatever the
      helper does, its result is what the [throw] statement receives. *)
  assertExhaustiveCheck : LocalTrack -> string -> completion value;
  getTrackSelectionModifiers : SyntheticEvent -> Modifiers;
}.

Section Resolver.
Context {types : Types} {imports : Imports}.

(** [throw e] where [e] is the result of evaluating an expression. *)
Definition throw_result {A} (c : completion value) : completion A :=
  match c with
  | Normal v => Throw (Thrown v)
  | Throw e => Throw e
  end.

(** The [switch] of [mapStateToProps]: the pair [(titleText,
    isSelected)] as assigned by the matching case, starting from
    [(null, false)]. *)
Definition select_by_type (state : State) (localTrack : LocalTrack)
  : completion (option string * bool) :=
  let titleText : option string := None in
  let isSelected := false in
  let selectedThreadIndexes := getSelectedThreadIndexes state in
  let ty := type localTrack in
  if String.eqb ty "thread" then
    let threadIndex := threadIndex localTrack in
    let selectedTab := getSelectedTab state in
    let isSelected :=
      has selectedThreadIndexes threadIndex
      && negb (String.eqb selectedTab network_chart) in
    let titleText := Some (getThreadProcessDetails threadIndex state) in
    Normal (titleText, isSelected)
  else if String.eqb ty "network" then
    let threadIndex := threadIndex localTrack in
    let selectedTab := getSelectedTab state in
    let isSelected :=
      has selectedThreadIndexes threadIndex
      && String.eqb selectedTab network_chart in
    Normal (titleText, isSelected)
  else if String.eqb ty "marker" || String.eqb ty "ipc" then
    let threadIndex := threadIndex localTrack in
    let selectedTab := getSelectedTab state in
    let isSelected :=
      has selectedThreadIndexes threadIndex
      && String.eqb selectedTab marker_chart in
    Normal (titleText, isSelected)
  else if String.eqb ty "event-delay" then
    let threadIndex := threadIndex localTrack in
    let isSelected :=
      strict_equals (VNumber threadIndex)
                    (VBoolean (has selectedThreadIndexes threadIndex)) in
    let titleText :=
      Some ("Event Delay of " +:+ getThreadProcessDetails threadIndex state) in
    Normal (titleText, isSelected)
  else if String.eqb ty "memory" || String.eqb ty "bandwidth"
          || String.eqb ty "process-cpu" || String.eqb ty "power" then
    let titleText := Some (getDescription (counterIndex localTrack) state) in
    Normal (titleText, isSelected)
  else
    throw_result (assertExhaustiveCheck localTrack "Unhandled LocalTrack type.").

Definition mapStateToProps (state : State) (own : OwnProps)
  : completion StateProps :=
  bind_completion (select_by_type state (localTrack own))
    (fun '(titleText, isSelected) =>
       Normal {| trackName := getLocalTrackName state (pid own) (trackIndex own);
                 titleText := titleText;
                 isSelected := isSelected;
                 isHidden := has (getHiddenLocalTracks state (pid own))
                                 (trackIndex own) |}).

(** [explicitConnect]: the component's props for a given store state. *)
Definition connect (state : State) (own : OwnProps) : completion Props :=
  bind_completion (mapStateToProps state own)
    (fun derived => Normal {| own := own; derived := derived |}).

End Resolver.

(** ** Effects

    What the component does to the outside world: the three action
    creators bound by [mapDispatchToProps], the parent's
    [setIsInitialSelectedPane] callback, and [console.error]. *)
Section Effects.
Context {types : Types}.

Inductive Command :=
| changeRightClickedTrack (reference : TrackReference)
| selectTrackWithModifiers (reference : TrackReference) (modifiers : Modifiers)
| hideLocalTrack (pid : Pid) (trackIndex : TrackIndex).

Inductive Effect :=
| Issue (c : Command)
| setIsInitialSelectedPane (value : bool)
| console_error (message : string) (localTrack : LocalTrack).

(** A computation that returns an [A] and appends to the effect log. *)
Definition Eff (A : Type) : Type := A * list Effect.

Definition ret {A} (a : A) : Eff A := (a, []).

Definition bind {A B} (m : Eff A) (k : A -> Eff B) : Eff B :=
  let (a, log1) := m in
  let (b, log2) := k a in
  (b, log1 ++ log2).

Definition emit (e : Effect) : Eff unit := (tt, [e]).

Definition result {A} (m : Eff A) : A := fst m.
Definition effects {A} (m : Eff A) : list Effect := snd m.

Definition is_notification (e : Effect) : bool :=
  match e with
  | setIsInitialSelectedPane _ => true
  | _ => false
  end.

Definition is_select (e : Effect) : bool :=
  match e with
  | Issue (selectTrackWithModifiers _ _) => true
  | _ => false
  end.

End Effects.

Notation "'let!' x ':=' m 'in' k" := (bind m (fun x => k))
  (at level 10, x name, m at level 100, k at level 200).
Notation "'run!' m 'in' k" := (bind m (fun _ => k))
  (at level 10, m at level 100, k at level 200).

(** ** Elements

    The tree [render] returns.  The instance methods used as event
    handlers are named; an element refers to them by name. *)
Inductive Handler :=
| _onContextMenu
| _selectCurrentTrack
| _hideCurrentTrack.

Inductive EventType :=
| click
| contextmenu.

Section Elements.
Context {types : Types}.

(** The attributes the file sets on host elements and hands to
    [ContextMenuTrigger]; an attribute that is not set is [None]. *)
Record Attributes := mkAttributes {
  className : option string;
  style_ : option Style;
  title : option string;
  type_ : option string;
  onClick : option Handler;
  onContextMenu : option Handler;
}.

Inductive Element :=
(** [<li>], [<div>], [<button>] *)
| Host (tag : string) (attributes : Attributes) (children : list Element)
(** a text child such as [{trackName}] *)
| Text (s : string)
(** [<ContextMenuTrigger id renderTag attributes>children</>]: renders
    [renderTag] with [attributes] around its children *)
| ContextMenuTrigger (id renderTag : string) (attributes : Attributes)
                     (children : list Element)
(** [<Localized id attrs>child</>]: renders its child, with the listed
    attributes translated *)
| Localized (id : string) (attrs : list string) (child : Element)
| TimelineTrackThread (threadsKey : ThreadIndex) (trackType trackName : string)
| TrackNetwork (threadIndex : ThreadIndex)
| TrackMemory (counterIndex : CounterIndex)
| TrackBandwidth (counterIndex : CounterIndex)
| TrackIPC (threadIndex : ThreadIndex)
| TrackEventDelay (threadIndex : ThreadIndex)
| TrackProcessCPU (counterIndex : CounterIndex)
| TrackPower (counterIndex : CounterIndex)
| TrackCustomMarker (threadIndex : ThreadIndex) (markerSchema : MarkerSchema)
                    (markerName : string).

Definition attribute_handlers (a : Attributes) : list Handler :=
  match onClick a with Some h => [h] | None => [] end
  ++ match onContextMenu a with Some h => [h] | None => [] end.

(** Every handler attached anywhere in a tree. *)
Fixpoint handlers (e : Element) : list Handler :=
  match e with
  | Host _ a children => attribute_handlers a ++ flat_map handlers children
  | ContextMenuTrigger _ _ a children =>
      attribute_handlers a ++ flat_map handlers children
  | Localized _ _ child => handlers child
  | _ => []
  end.

Definition listener (ty : EventType) (a : Attributes) : option Handler :=
  match ty with
  | click => onClick a
  | contextmenu => onContextMenu a
  end.

Definition element_attributes (e : Element) : option Attributes :=
  match e with
  | Host _ a _ => Some a
  | ContextMenuTrigger _ _ a _ => Some a
  | _ => None
  end.

Definition element_children (e : Element) : list Element :=
  match e with
  | Host _ _ children => children
  | ContextMenuTrigger _ _ _ children => children
  | Localized _ _ child => [child]
  | _ => []
  end.

(** The elements met on the way from [e] down to the node addressed by
    [path] (child positions), outermost first; [None] when the path
    leaves the tree. *)
Fixpoint path_to (path : list nat) (e : Element) : option (list Element) :=
  match path with
  | [] => Some [e]
  | i :: rest =>
      match nth_error (element_children e) i with
      | Some child =>
          match path_to rest child with
          | Some below => Some (e :: below)
          | None => None
          end
      | None => None
      end
  end.

(** The listeners for [ty] an event fired at the end of a path passes
    while it bubbles, innermost first. *)
Definition bubbling_listeners (ty : EventType) (nodes : list Element)
  : list Handler :=
  flat_map (fun e =>
              match element_attributes e with
              | Some a => match listener ty a with Some h => [h] | None => [] end
              | None => []
              end)
           (rev nodes).

End Elements.

(** ** The component *)
Section Component.
Context {types : Types} {imports : Imports}.

Definition _getTrackReference (props : Props) : TrackReference :=
  {| ref_type := "local";
     ref_pid := pid props;
     ref_trackIndex := trackIndex props |}.

Definition onContextMenu_handler (props : Props) : Eff unit :=
  emit (Issue (changeRightClickedTrack (_getTrackReference props))).

Definition selectCurrentTrack_handler (props : Props) (event : SyntheticEvent)
  : Eff unit :=
  emit (Issue (selectTrackWithModifiers (_getTrackReference props)
                 (getTrackSelectionModifiers event))).

(** [hideLocalTrack(pid, trackIndex); event.stopPropagation();]: the
    event comes back with its flag set. *)
Definition hideCurrentTrack_handler (props : Props) (event : SyntheticEvent)
  : Eff SyntheticEvent :=
  run! emit (Issue (hideLocalTrack (pid props) (trackIndex props))) in
  ret (stopPropagation event).

(** Calling a handler by name on the instance whose props are [props]. *)
Definition call_handler (props : Props) (h : Handler) (event : SyntheticEvent)
  : Eff SyntheticEvent :=
  match h with
  | _onContextMenu => run! onContextMenu_handler props in ret event
  | _selectCurrentTrack => run! selectCurrentTrack_handler props event in ret event
  | _hideCurrentTrack => hideCurrentTrack_handler props event
  end.

(** [renderTrack]: [None] is the [null] of the default branch. *)
Definition renderTrack (props : Props) : Eff (option Element) :=
  let localTrack := localTrack props in
  let trackName := trackName props in
  let ty := type localTrack in
  if String.eqb ty "thread" then
    ret (Some (TimelineTrackThread (threadIndex localTrack) "expanded" trackName))
  else if String.eqb ty "network" then
    ret (Some (TrackNetwork (threadIndex localTrack)))
  else if String.eqb ty "memory" then
    ret (Some (TrackMemory (counterIndex localTrack)))
  else if String.eqb ty "bandwidth" then
    ret (Some (TrackBandwidth (counterIndex localTrack)))
  else if String.eqb ty "ipc" then
    ret (Some (TrackIPC (threadIndex localTrack)))
  else if String.eqb ty "event-delay" then
    ret (Some (TrackEventDelay (threadIndex localTrack)))
  else if String.eqb ty "process-cpu" then
    ret (Some (TrackProcessCPU (counterIndex localTrack)))
  else if String.eqb ty "power" then
    ret (Some (TrackPower (counterIndex localTrack)))
  else if String.eqb ty "marker" then
    ret (Some (TrackCustomMarker (threadIndex localTrack)
                 (markerSchema localTrack) (markerName localTrack)))
  else
    run! emit (console_error "Unhandled localTrack type" localTrack) in
    ret None.

(** [classNames(base, { [name]: on })] *)
Definition classNames (base name : string) (on : bool) : string :=
  if on then base +:+ " " +:+ name else base.

(** A [null] child renders nothing. *)
Definition child_of (e : option Element) : list Element :=
  match e with
  | Some x => [x]
  | None => []
  end.

(** [<li className="timelineTrackHidden" />] *)
Definition hidden_stub : Element :=
  Host "li"
       {| className := Some "timelineTrackHidden"; style_ := None;
          title := None; type_ := None;
          onClick := None; onContextMenu := None |}
       [].

Definition render (props : Props) : Eff Element :=
  if isHidden props then
    ret hidden_stub
  else
    let! track := renderTrack props in
    ret
      (Host "li"
         {| className := Some "timelineTrack timelineTrackLocal";
            style_ := style props;
            title := None; type_ := None;
            onClick := None; onContextMenu := None |}
         [ Host "div"
             {| className :=
                  Some (classNames "timelineTrackRow timelineTrackLocalRow"
                                   "selected" (isSelected props));
                style_ := None; title := None; type_ := None;
                onClick := Some _selectCurrentTrack;
                onContextMenu := None |}
             [ ContextMenuTrigger "TimelineTrackContextMenu" "div"
                 {| className :=
                      Some "timelineTrackLabel timelineTrackLocalLabel timelineTrackLocalGrippy";
                    style_ := None;
                    title := titleText props;
                    type_ := None;
                    onClick := None;
                    onContextMenu := Some _onContextMenu |}
                 [ Host "button"
                     {| className := Some "timelineTrackNameButton";
                        style_ := None; title := None;
                        type_ := Some "button";
                        onClick := None; onContextMenu := None |}
                     [ Text (trackName props) ];
                   Localized "TrackNameButton--hide-track" ["title"]
                     (Host "button"
                        {| className := Some "timelineTrackCloseButton";
                           style_ := None;
                           title := Some "Hide track";
                           type_ := Some "button";
                           onClick := Some _hideCurrentTrack;
                           onContextMenu := None |}
                        []) ];
               Host "div"
                 {| className := Some "timelineTrackTrack";
                    style_ := None; title := None; type_ := None;
                    onClick := None; onContextMenu := None |}
                 (child_of track) ] ]).

Definition componentDidMount (props : Props) : Eff unit :=
  if isSelected props then emit (setIsInitialSelectedPane true) else ret tt.

(** ** Events on the rendered row

    An event fired at a node runs the listeners of its type from that
    node outwards; a listener that leaves the event with its
    propagation stopped ends the walk. *)
Fixpoint bubble (props : Props) (listeners : list Handler)
         (event : SyntheticEvent) : Eff SyntheticEvent :=
  match listeners with
  | [] => ret event
  | h :: outer =>
      let! event' := call_handler props h event in
      if propagationStopped event' then ret event'
      else bubble props outer event'
  end.

(** Firing an event of type [ty] at the node [target] of the row as
    rendered from [props]; nothing happens when [target] is not a node
    of the row. *)
Definition fire (props : Props) (ty : EventType) (target : list nat)
           (event : SyntheticEvent) : Eff SyntheticEvent :=
  match path_to target (result (render props)) with
  | Some nodes => bubble props (bubbling_listeners ty nodes) event
  | None => ret event
  end.

(** Where the close button sits in the row: the [li]'s row [div], the
    label, the [Localized] wrapper, its button. *)
Definition close_button : list nat := [0%nat; 0%nat; 1%nat; 0%nat].

(** ** The life of one mounted row

    After it is mounted, a row receives new props (a store change or a
    new parent render) and events on its nodes.  The class defines
    [componentDidMount] and no other lifecycle method. *)
Inductive Stimulus :=
| receive_props (props : Props)
| user_event (ty : EventType) (target : list nat) (event : SyntheticEvent).

Definition mount (props : Props) : Eff Props :=
  run! render props in
  run! componentDidMount props in
  ret props.

Definition step (props : Props) (s : Stimulus) : Eff Props :=
  match s with
  | receive_props props' => run! render props' in ret props'
  | user_event ty target event => run! fire props ty target event in ret props
  end.

Fixpoint steps (props : Props) (ss : list Stimulus) : Eff Props :=
  match ss with
  | [] => ret props
  | s :: rest => let! props' := step props s in steps props' rest
  end.

(** Everything a row does from its mount on. *)
Definition lifetime (props : Props) (ss : list Stimulus) : Eff Props :=
  let! mounted := mount props in steps mounted ss.

Definition notifications (log : list Effect) : list Effect :=
  List.filter is_notification log.

End Component.

(** ** Reading a log *)
Section Observations.
Context {types : Types} {imports : Imports}.

(** The entries of a log that are redux commands. *)
Definition is_command (e : Effect) : bool :=
  match e with
  | Issue _ => true
  | _ => false
  end.

Definition commands (log : list Effect) : list Effect :=
  List.filter is_command log.

Definition is_user_event (s : Stimulus) : bool :=
  match s with
  | user_event _ _ _ => true
  | receive_props _ => false
  end.

End Observations.

(** ** A small store to run the component on

    A state that holds exactly what the selectors read, with numeric
    process ids. *)
Record SampleState := mkSampleState {
  selectedThreadIndexes : gset ThreadIndex;
  selectedTab : string;
  hiddenLocalTracks : Z -> gset TrackIndex;
  processDetails : ThreadIndex -> string;
  counterDescription : CounterIndex -> string;
}.

Definition sample_types : Types :=
  {| Pid := Z; State := SampleState; MarkerSchema := string; Style := string |}.

(** Modelled from the spec: [assertExhaustiveCheck] lives in
    [utils/flow], outside this file; the spec has the resolver "fail
    loudly (abort / throw)" on an unrecognized variant, so the helper
    throws an error carrying the message it is given. *)
Definition sample_assertExhaustiveCheck
  (notValid : @LocalTrack sample_types) (errorMessage : string)
  : completion value :=
  Throw (Error errorMessage).

(** Modelled from the spec: [getTrackSelectionModifiers] lives in
    [utils], outside this file; the spec reads "ctrl/cmd for
    multi-select, shift for range-select". *)
Definition sample_getTrackSelectionModifiers
  (event : @SyntheticEvent) : Modifiers :=
  {| multi := ctrlKey event || metaKey event; range := shiftKey event |}.

Definition sample_imports : @Imports sample_types :=
  @Build_Imports sample_types
    selectedThreadIndexes
    selectedTab
    hiddenLocalTracks
    (fun _ _ _ => "Renderer")
    (fun threadIndex state => processDetails state threadIndex)
    (fun counterIndex state => counterDescription state counterIndex)
    sample_assertExhaustiveCheck
    sample_getTrackSelectionModifiers.

Section Sample.
#[local] Existing Instance sample_types.
#[local] Existing Instance sample_imports.

Definition sample_state (selected : gset ThreadIndex) (tab : string)
           (hidden : gset TrackIndex) : SampleState :=
  {| selectedThreadIndexes := selected;
     selectedTab := tab;
     hiddenLocalTracks := fun _ => hidden;
     processDetails := fun _ => "Web Content (pid 7)";
     counterDescription := fun _ => "Amount of allocated memory" |}.

(** A descriptor of the given tag whose indexes are both [index]. *)
Definition sample_track (ty : string) (index : Z) : @LocalTrack sample_types :=
  {| type := ty; threadIndex := index; counterIndex := index;
     markerSchema := "schema"; markerName := "name" |}.

(** The row of process 7 at track index 2. *)
Definition sample_own (ty : string) (index : Z) : @OwnProps sample_types :=
  {| pid := 7; localTrack := sample_track ty index; trackIndex := 2;
     style := None |}.

Definition sample_props (ty : string) (index : Z) (selected hidden : bool)
  : @Props sample_types :=
  {| own := sample_own ty index;
     derived := {| trackName := "Renderer"; isSelected := selected;
                   isHidden := hidden; titleText := None |} |}.

Definition sample_event : SyntheticEvent :=
  {| ctrlKey := false; metaKey := false; shiftKey := false;
     propagationStopped := false |}.

End Sample.

(** * Properties *)

(** ** The resolver, case by case *)
Section ResolverFacts.
Context {types : Types} {imports : Imports}.

Lemma has_true (s : gset Z) (x : Z) : has s x = true <-> x ∈ s.
Proof. unfold has. apply bool_decide_eq_true. Qed.

Lemma in_singleton (x : Z) : x ∈ ({[x]} : gset Z).
Proof. apply elem_of_singleton. reflexivity. Qed.

Lemma strict_equals_number_boolean (n : Z) (b : bool) :
  strict_equals (VNumber n) (VBoolean b) = false.
Proof. reflexivity. Qed.

(** Membership in the closed set of tags, as a disjunction. *)
Lemma known_type_In (ty : string) :
  known_type ty = true <-> In ty local_track_types.
Proof.
  unfold known_type. rewrite existsb_exists. split.
  - intros [x [Hin Heq]]. apply String.eqb_eq in Heq. now subst.
  - intros Hin. exists ty. split; [assumption | apply String.eqb_refl].
Qed.

Ltac by_tag Hty :=
  unfold mapStateToProps, select_by_type; rewrite Hty; simpl; reflexivity.

Lemma resolve_thread (state : State) (own : OwnProps) :
  type (localTrack own) = "thread" ->
  mapStateToProps state own =
  Normal {| trackName := getLocalTrackName state (pid own) (trackIndex own);
            titleText := Some (getThreadProcessDetails
                                 (threadIndex (localTrack own)) state);
            isSelected :=
              has (getSelectedThreadIndexes state) (threadIndex (localTrack own))
              && negb (String.eqb (getSelectedTab state) network_chart);
            isHidden := has (getHiddenLocalTracks state (pid own))
                            (trackIndex own) |}.
Proof. intros Hty. by_tag Hty. Qed.

Lemma resolve_network (state : State) (own : OwnProps) :
  type (localTrack own) = "network" ->
  mapStateToProps state own =
  Normal {| trackName := getLocalTrackName state (pid own) (trackIndex own);
            titleText := None;
            isSelected :=
              has (getSelectedThreadIndexes state) (threadIndex (localTrack own))
              && String.eqb (getSelectedTab state) network_chart;
            isHidden := has (getHiddenLocalTracks state (pid own))
                            (trackIndex own) |}.
Proof. intros Hty. by_tag Hty. Qed.

Lemma resolve_marker_ipc (state : State) (own : OwnProps) :
  type (localTrack own) = "marker" \/ type (localTrack own) = "ipc" ->
  mapStateToProps state own =
  Normal {| trackName := getLocalTrackName state (pid own) (trackIndex own);
            titleText := None;
            isSelected :=
              has (getSelectedThreadIndexes state) (threadIndex (localTrack own))
              && String.eqb (getSelectedTab state) marker_chart;
            isHidden := has (getHiddenLocalTracks state (pid own))
                            (trackIndex own) |}.
Proof. intros [Hty | Hty]; by_tag Hty. Qed.

Lemma resolve_event_delay (state : State) (own : OwnProps) :
  type (localTrack own) = "event-delay" ->
  mapStateToProps state own =
  Normal {| trackName := getLocalTrackName state (pid own) (trackIndex own);
            titleText := Some ("Event Delay of "
                               +:+ getThreadProcessDetails
                                     (threadIndex (localTrack own)) state);
            isSelected := false;
            isHidden := has (getHiddenLocalTracks state (pid own))
                            (trackIndex own) |}.
Proof. intros Hty. by_tag Hty. Qed.

Lemma resolve_counter (state : State) (own : OwnProps) :
  In (type (localTrack own)) ["memory"; "bandwidth"; "process-cpu"; "power"] ->
  mapStateToProps state own =
  Normal {| trackName := getLocalTrackName state (pid own) (trackIndex own);
            titleText := Some (getDescription (counterIndex (localTrack own)) state);
            isSelected := false;
            isHidden := has (getHiddenLocalTracks state (pid own))
                            (trackIndex own) |}.
Proof.
  simpl. intros [Hty | [Hty | [Hty | [Hty | []]]]]; symmetry in Hty; by_tag Hty.
Qed.

Lemma resolve_unknown (state : State) (own : OwnProps) :
  known_type (type (localTrack own)) = false ->
  mapStateToProps state own =
  throw_result (assertExhaustiveCheck (localTrack own) "Unhandled LocalTrack type.").
Proof.
  unfold known_type, local_track_types. simpl. intros Hty.
  repeat (apply orb_false_elim in Hty; destruct Hty as [? Hty]).
  unfold mapStateToProps, select_by_type.
  repeat match goal with
         | E : String.eqb _ _ = false |- _ => rewrite E; clear E
         end.
  simpl. now destruct (assertExhaustiveCheck _ _).
Qed.

Lemma throw_result_throws {A} (c : completion value) :
  throws (@throw_result A c).
Proof. destruct c as [v | e]; simpl; eexists; reflexivity. Qed.

(** Whatever the tag, a result that comes back carries the hidden flag
    read from the store. *)
Lemma resolve_hidden (state : State) (own : OwnProps) (derived : StateProps) :
  mapStateToProps state own = Normal derived ->
  isHidden derived = has (getHiddenLocalTracks state (pid own)) (trackIndex own).
Proof.
  unfold mapStateToProps.
  destruct (select_by_type state (localTrack own)) as [[t s] | e]; simpl.
  - intros [= <-]. reflexivity.
  - discriminate.
Qed.

(** The connected props are the own props next to the resolver's
    result. *)
Lemma connect_Normal (state : State) (own : OwnProps) (props : Props) :
  connect state own = Normal props <->
  exists derived,
    mapStateToProps state own = Normal derived
    /\ props = {| own := own; derived := derived |}.
Proof.
  unfold connect. destruct (mapStateToProps state own) as [d | e]; simpl; split.
  - intros [= <-]. eauto.
  - intros [d' [[= <-] ->]]. reflexivity.
  - discriminate.
  - intros [d' [Hd _]]. discriminate.
Qed.

(** On every tag of the union the resolver returns. *)
Lemma resolve_known (state : State) (own : OwnProps) :
  known_type (type (localTrack own)) = true ->
  returns (mapStateToProps state own).
Proof.
  rewrite known_type_In. unfold local_track_types. simpl.
  intros Hty. unfold returns.
  repeat destruct Hty as [Hty | Hty]; try contradiction; symmetry in Hty.
  - rewrite resolve_thread by assumption. eauto.
  - rewrite resolve_network by assumption. eauto.
  - rewrite resolve_counter by (rewrite Hty; simpl; tauto). eauto.
  - rewrite resolve_counter by (rewrite Hty; simpl; tauto). eauto.
  - rewrite resolve_marker_ipc by tauto. eauto.
  - rewrite resolve_event_delay by assumption. eauto.
  - rewrite resolve_counter by (rewrite Hty; simpl; tauto). eauto.
  - rewrite resolve_counter by (rewrite Hty; simpl; tauto). eauto.
  - rewrite resolve_marker_ipc by tauto. eauto.
Qed.

End ResolverFacts.

(** ** Selection and title by variant *)
Section Selection.
Context {types : Types} {imports : Imports}.

(** C1. For a 'thread' descriptor the resolver returns, and its
    [isSelected] is true exactly when the descriptor's thread index is
    in the selected-thread set and the selected tab is not
    'network-chart'; in particular a selected thread index under the
    'network-chart' tab gives [isSelected = false]. *)
Theorem thread_selected_iff (state : State) (own : OwnProps) :
  type (localTrack own) = "thread" ->
  exists derived,
    mapStateToProps state own = Normal derived
    /\ (isSelected derived = true <->
        threadIndex (localTrack own) ∈ getSelectedThreadIndexes state
        /\ getSelectedTab state <> "network-chart")
    /\ (threadIndex (localTrack own) ∈ getSelectedThreadIndexes state ->
        getSelectedTab state = "network-chart" ->
        isSelected derived = false).
Proof.
  intros Hty. eexists. split; [apply resolve_thread; exact Hty |].
  cbn [isSelected]. unfold network_chart. split.
  - rewrite andb_true_iff, has_true, negb_true_iff, String.eqb_neq. tauto.
  - intros _ Htab. rewrite Htab. apply andb_false_r.
Qed.

(** C2. For a 'network' descriptor the resolver returns, its
    [isSelected] is true exactly when the thread index is in the
    selected-thread set and the selected tab is 'network-chart', and its
    [titleText] is null. *)
Theorem network_selected_iff (state : State) (own : OwnProps) :
  type (localTrack own) = "network" ->
  exists derived,
    mapStateToProps state own = Normal derived
    /\ (isSelected derived = true <->
        threadIndex (localTrack own) ∈ getSelectedThreadIndexes state
        /\ getSelectedTab state = "network-chart")
    /\ titleText derived = None.
Proof.
  intros Hty. eexists. split; [apply resolve_network; exact Hty |].
  cbn [isSelected titleText]. unfold network_chart. split; [| reflexivity].
  rewrite andb_true_iff, has_true, String.eqb_eq. tauto.
Qed.

(** C3. For a 'marker' or 'ipc' descriptor the resolver returns, its
    [isSelected] is true exactly when the selected tab is 'marker-chart'
    and the thread index is in the selected-thread set, and its
    [titleText] is null. *)
Theorem marker_ipc_selected_iff (state : State) (own : OwnProps) :
  type (localTrack own) = "marker" \/ type (localTrack own) = "ipc" ->
  exists derived,
    mapStateToProps state own = Normal derived
    /\ (isSelected derived = true <->
        getSelectedTab state = "marker-chart"
        /\ threadIndex (localTrack own) ∈ getSelectedThreadIndexes state)
    /\ titleText derived = None.
Proof.
  intros Hty. eexists. split; [apply resolve_marker_ipc; exact Hty |].
  cbn [isSelected titleText]. unfold marker_chart. split; [| reflexivity].
  rewrite andb_true_iff, has_true, String.eqb_eq. tauto.
Qed.

(** C4. For an 'event-delay' descriptor (its thread index an integer)
    the resolver returns [isSelected = false] whatever the
    selected-thread set and the selected tab are: the source compares
    the number [threadIndex] with the boolean
    [selectedThreadIndexes.has(threadIndex)] by [===]. *)
Theorem event_delay_never_selected (state : State) (own : OwnProps) :
  type (localTrack own) = "event-delay" ->
  strict_equals (VNumber (threadIndex (localTrack own)))
                (VBoolean (has (getSelectedThreadIndexes state)
                               (threadIndex (localTrack own)))) = false
  /\ exists derived,
       mapStateToProps state own = Normal derived
       /\ isSelected derived = false.
Proof.
  intros Hty. split; [apply strict_equals_number_boolean |].
  eexists. split; [apply resolve_event_delay; exact Hty | reflexivity].
Qed.

(** C5. For a 'memory', 'bandwidth', 'process-cpu' or 'power'
    descriptor the resolver returns [isSelected = false] and
    [titleText] = the counter description looked up by the descriptor's
    counter index. *)
Theorem counter_title_unselected (state : State) (own : OwnProps) :
  In (type (localTrack own)) ["memory"; "bandwidth"; "process-cpu"; "power"] ->
  exists derived,
    mapStateToProps state own = Normal derived
    /\ isSelected derived = false
    /\ titleText derived
       = Some (getDescription (counterIndex (localTrack own)) state).
Proof.
  intros Hty. eexists. split; [apply resolve_counter; exact Hty |].
  split; reflexivity.
Qed.

(** C8. For an 'event-delay' descriptor the resolver's [titleText] is
    "Event Delay of " followed by the process-details string looked up
    by the descriptor's thread index. *)
Theorem event_delay_title (state : State) (own : OwnProps) :
  type (localTrack own) = "event-delay" ->
  exists derived,
    mapStateToProps state own = Normal derived
    /\ titleText derived
       = Some ("Event Delay of "
               +:+ getThreadProcessDetails (threadIndex (localTrack own)) state).
Proof.
  intros Hty. eexists. split; [apply resolve_event_delay; exact Hty | reflexivity].
Qed.

End Selection.

(** ** Rendering and events *)
Section Rendering.
Context {types : Types} {imports : Imports}.

Lemma effects_bind {A B} (m : Eff A) (k : A -> Eff B) :
  effects (bind m k) = effects m ++ effects (k (result m)).
Proof.
  unfold effects, result, bind. destruct m as [a l1]. simpl.
  destruct (k a) as [b l2]. reflexivity.
Qed.

Lemma result_bind {A B} (m : Eff A) (k : A -> Eff B) :
  result (bind m k) = result (k (result m)).
Proof.
  unfold result, bind. destruct m as [a l1]. simpl.
  destruct (k a) as [b l2]. reflexivity.
Qed.

(** The renderer's default branch. *)
Lemma renderTrack_unknown (props : Props) :
  known_type (type (localTrack props)) = false ->
  renderTrack props
  = (None, [console_error "Unhandled localTrack type" (localTrack props)]).
Proof.
  unfold known_type, local_track_types. simpl. intros Hty.
  repeat (apply orb_false_elim in Hty; destruct Hty as [? Hty]).
  unfold renderTrack.
  repeat match goal with
         | E : String.eqb _ _ = false |- _ => rewrite E; clear E
         end.
  reflexivity.
Qed.

(** The renderer logs to the console and does nothing else. *)
Lemma renderTrack_effects (props : Props) :
  effects (renderTrack props) = []
  \/ effects (renderTrack props)
     = [console_error "Unhandled localTrack type" (localTrack props)].
Proof.
  unfold renderTrack.
  repeat match goal with
         | |- context [if ?b then _ else _] => destruct b; [left; reflexivity |]
         end.
  right. reflexivity.
Qed.

Lemma render_hidden (props : Props) :
  isHidden props = true -> render props = (hidden_stub, []).
Proof. intros Hh. unfold render. rewrite Hh. reflexivity. Qed.

(** The tree of a visible row; only the last [div]'s children depend on
    the descriptor. *)
Lemma render_visible (props : Props) :
  isHidden props = false ->
  result (render props)
  = Host "li"
        {| className := Some "timelineTrack timelineTrackLocal";
           style_ := style props;
           title := None; type_ := None;
           onClick := None; onContextMenu := None |}
        [ Host "div"
            {| className :=
                 Some (classNames "timelineTrackRow timelineTrackLocalRow"
                                  "selected" (isSelected props));
               style_ := None; title := None; type_ := None;
               onClick := Some _selectCurrentTrack;
               onContextMenu := None |}
            [ ContextMenuTrigger "TimelineTrackContextMenu" "div"
                {| className :=
                     Some "timelineTrackLabel timelineTrackLocalLabel timelineTrackLocalGrippy";
                   style_ := None;
                   title := titleText props;
                   type_ := None;
                   onClick := None;
                   onContextMenu := Some _onContextMenu |}
                [ Host "button"
                    {| className := Some "timelineTrackNameButton";
                       style_ := None; title := None;
                       type_ := Some "button";
                       onClick := None; onContextMenu := None |}
                    [ Text (trackName props) ];
                  Localized "TrackNameButton--hide-track" ["title"]
                    (Host "button"
                       {| className := Some "timelineTrackCloseButton";
                          style_ := None;
                          title := Some "Hide track";
                          type_ := Some "button";
                          onClick := Some _hideCurrentTrack;
                          onContextMenu := None |}
                       []) ];
              Host "div"
                {| className := Some "timelineTrackTrack";
                   style_ := None; title := None; type_ := None;
                   onClick := None; onContextMenu := None |}
                (child_of (result (renderTrack props))) ] ].
Proof.
  intros Hh. unfold render. rewrite Hh. rewrite result_bind. reflexivity.
Qed.

Lemma render_effects (props : Props) :
  effects (render props) = []
  \/ effects (render props)
     = [console_error "Unhandled localTrack type" (localTrack props)].
Proof.
  unfold render. destruct (isHidden props); [left; reflexivity |].
  rewrite effects_bind. simpl. rewrite app_nil_r. apply renderTrack_effects.
Qed.

Lemma render_no_notification (props : Props) :
  notifications (effects (render props)) = [].
Proof. destruct (render_effects props) as [-> | ->]; reflexivity. Qed.

Lemma call_handler_no_notification (props : Props) (h : Handler)
      (event : SyntheticEvent) :
  notifications (effects (call_handler props h event)) = [].
Proof. destruct h; reflexivity. Qed.

Lemma notifications_app (l1 l2 : list Effect) :
  notifications (l1 ++ l2) = notifications l1 ++ notifications l2.
Proof. apply List.filter_app. Qed.

Lemma bubble_no_notification (props : Props) (listeners : list Handler) :
  forall event, notifications (effects (bubble props listeners event)) = [].
Proof.
  induction listeners as [| h outer IH]; intros event; simpl; [reflexivity |].
  rewrite effects_bind, notifications_app, call_handler_no_notification.
  simpl. destruct (propagationStopped _); [reflexivity | apply IH].
Qed.

Lemma fire_no_notification (props : Props) (ty : EventType)
      (target : list nat) (event : SyntheticEvent) :
  notifications (effects (fire props ty target event)) = [].
Proof.
  unfold fire. destruct (path_to _ _); [apply bubble_no_notification | reflexivity].
Qed.

Lemma step_no_notification (props : Props) (s : Stimulus) :
  notifications (effects (step props s)) = [].
Proof.
  destruct s as [props' | ty target event]; simpl;
    rewrite effects_bind, notifications_app; simpl; rewrite app_nil_r.
  - apply render_no_notification.
  - apply fire_no_notification.
Qed.

Lemma steps_no_notification (ss : list Stimulus) :
  forall props, notifications (effects (steps props ss)) = [].
Proof.
  induction ss as [| s rest IH]; intros props; simpl; [reflexivity |].
  rewrite effects_bind, notifications_app, step_no_notification, IH.
  reflexivity.
Qed.

(** A stub has no listener on any path. *)
Lemma path_to_hidden_stub (target : list nat) :
  path_to target hidden_stub = Some [hidden_stub] \/ path_to target hidden_stub = None.
Proof.
  destruct target as [| i rest]; [left; reflexivity | right].
  simpl. now destruct i.
Qed.

End Rendering.

(** ** Hidden rows, unknown variants, the close button, the mount *)
Section Behaviour.
Context {types : Types} {imports : Imports}.

(** C6. For every track identity and every variant of the union, the
    resolver's [isHidden] is true exactly when the track index is in the
    hidden-local-tracks set of the process (and so the row connected to
    such a store renders the stub); and props with [isHidden] true
    render the stub [<li className="timelineTrackHidden" />] whatever
    the descriptor, a tree with no handler attached, on which no event
    has any effect. *)
Theorem hidden_iff_and_inert (state : State) (own : OwnProps) (props : Props) :
  known_type (type (localTrack own)) = true ->
  isHidden props = true ->
  (exists connected,
      connect state own = Normal connected
      /\ (isHidden connected = true <->
          trackIndex own ∈ getHiddenLocalTracks state (pid own))
      /\ (trackIndex own ∈ getHiddenLocalTracks state (pid own) ->
          render connected = (hidden_stub, [])))
  /\ render props = (hidden_stub, [])
  /\ handlers (result (render props)) = []
  /\ (forall ty target event, fire props ty target event = (event, [])).
Proof.
  intros Hty Hh. split; [| split; [| split]].
  - destruct (resolve_known state own Hty) as [derived Hd].
    exists {| own := own; derived := derived |}.
    assert (Hiff : isHidden derived = true <->
                   trackIndex own ∈ getHiddenLocalTracks state (pid own)).
    { rewrite (resolve_hidden _ _ _ Hd). apply has_true. }
    split; [apply connect_Normal; eauto |]. split; [exact Hiff |].
    intros Hin. apply render_hidden. apply Hiff, Hin.
  - apply render_hidden, Hh.
  - rewrite (render_hidden _ Hh). reflexivity.
  - intros ty target event. unfold fire. rewrite (render_hidden _ Hh).
    unfold result, fst.
    destruct (path_to_hidden_stub target) as [-> | ->]; [| reflexivity].
    destruct ty; reflexivity.
Qed.

(** C7. On a descriptor whose tag is outside the closed set the
    resolver throws, while the dispatch renderer on the same descriptor
    logs an error to the console and returns null; on every descriptor
    whose tag is in the set the resolver returns. *)
Theorem unknown_variant_policies (state : State) (props : Props) :
  (known_type (type (localTrack props)) = false ->
   throws (mapStateToProps state props)
   /\ renderTrack props
      = (None, [console_error "Unhandled localTrack type" (localTrack props)]))
  /\ (known_type (type (localTrack props)) = true ->
      returns (mapStateToProps state props)).
Proof.
  split.
  - intros Hty. split.
    + rewrite (resolve_unknown _ _ Hty). apply throw_result_throws.
    + apply renderTrack_unknown, Hty.
  - apply resolve_known.
Qed.

(** C9. A click on the close button of a visible row issues the
    hide-track command for (pid, trackIndex) and nothing else, and
    leaves the event with its propagation stopped: the row's
    select-track listener, which the event would reach next, is not
    run. *)
Theorem close_button_hides_only (props : Props) (event : SyntheticEvent) :
  isHidden props = false ->
  (exists nodes,
      path_to close_button (result (render props)) = Some nodes
      /\ bubbling_listeners click nodes = [_hideCurrentTrack; _selectCurrentTrack])
  /\ call_handler props _hideCurrentTrack event
     = (stopPropagation event,
        [Issue (hideLocalTrack (pid props) (trackIndex props))])
  /\ fire props click close_button event
     = (stopPropagation event,
        [Issue (hideLocalTrack (pid props) (trackIndex props))])
  /\ propagationStopped (result (fire props click close_button event)) = true
  /\ List.filter is_select (effects (fire props click close_button event)) = [].
Proof.
  intros Hh.
  pose proof (render_visible props Hh) as Htree.
  assert (Hfire : fire props click close_button event
                  = (stopPropagation event,
                     [Issue (hideLocalTrack (pid props) (trackIndex props))])).
  { unfold fire. rewrite Htree. reflexivity. }
  split; [| split; [| split; [| split]]].
  - eexists. rewrite Htree. split; reflexivity.
  - reflexivity.
  - exact Hfire.
  - rewrite Hfire. reflexivity.
  - rewrite Hfire. reflexivity.
Qed.

(** C10. Over the whole life of a mounted row, whatever props it later
    receives and whatever events reach it, the parent is notified at
    most once, with [true], and it is notified exactly when
    [isSelected] is true in the props the row is mounted with; a row
    mounted unselected never notifies. *)
Theorem notification_once_at_mount (props : Props) (ss : list Stimulus) :
  notifications (effects (lifetime props ss))
  = (if isSelected props then [setIsInitialSelectedPane true] else [])
  /\ (length (notifications (effects (lifetime props ss))) <= 1)%nat
  /\ effects (componentDidMount props)
     = (if isSelected props then [setIsInitialSelectedPane true] else []).
Proof.
  assert (Hn : notifications (effects (lifetime props ss))
               = if isSelected props then [setIsInitialSelectedPane true] else []).
  { unfold lifetime, mount.
    rewrite !effects_bind, !notifications_app, !result_bind.
    rewrite render_no_notification, steps_no_notification.
    unfold componentDidMount. destruct (isSelected props); reflexivity. }
  split; [exact Hn | split].
  - rewrite Hn. destruct (isSelected props); simpl; lia.
  - unfold componentDidMount. destruct (isSelected props); reflexivity.
Qed.

End Behaviour.

(** ** The theorems at work on the sample store *)
Section SampleRuns.
#[local] Existing Instance sample_types.
#[local] Existing Instance sample_imports.

(** Thread 5 is selected and the network tab is open: the thread row
    is not selected. *)
Lemma thread_selected_iff_witness :
  type (localTrack (sample_own "thread" 5)) = "thread"
  /\ exists derived,
       mapStateToProps (sample_state {[5]} "network-chart" ∅)
                       (sample_own "thread" 5) = Normal derived
       /\ isSelected derived = false.
Proof.
  split; [reflexivity |].
  destruct (thread_selected_iff (imports := sample_imports) (sample_state {[5]} "network-chart" ∅)
              (sample_own "thread" 5) eq_refl) as [derived [Hd [_ Hoff]]].
  exists derived. split; [exact Hd |].
  apply Hoff; [exact (in_singleton 5) | reflexivity].
Defined.

(** Thread 5 is selected and the network tab is open: the network row
    is selected and has no title. *)
Lemma network_selected_iff_witness :
  type (localTrack (sample_own "network" 5)) = "network"
  /\ exists derived,
       mapStateToProps (sample_state {[5]} "network-chart" ∅)
                       (sample_own "network" 5) = Normal derived
       /\ isSelected derived = true
       /\ titleText derived = None.
Proof.
  split; [reflexivity |].
  destruct (network_selected_iff (imports := sample_imports) (sample_state {[5]} "network-chart" ∅)
              (sample_own "network" 5) eq_refl) as [derived [Hd [Hiff Ht]]].
  exists derived. split; [exact Hd |]. split; [| exact Ht].
  apply Hiff. split; [exact (in_singleton 5) | reflexivity].
Defined.

(** Thread 5 is selected and the marker tab is open: the ipc row is
    selected and has no title. *)
Lemma marker_ipc_selected_iff_witness :
  (type (localTrack (sample_own "ipc" 5)) = "marker"
   \/ type (localTrack (sample_own "ipc" 5)) = "ipc")
  /\ exists derived,
       mapStateToProps (sample_state {[5]} "marker-chart" ∅)
                       (sample_own "ipc" 5) = Normal derived
       /\ isSelected derived = true
       /\ titleText derived = None.
Proof.
  split; [right; reflexivity |].
  destruct (marker_ipc_selected_iff (imports := sample_imports) (sample_state {[5]} "marker-chart" ∅)
              (sample_own "ipc" 5) (or_intror eq_refl))
    as [derived [Hd [Hiff Ht]]].
  exists derived. split; [exact Hd |]. split; [| exact Ht].
  apply Hiff. split; [reflexivity | exact (in_singleton 5)].
Defined.

(** Thread 5 is selected, the call tree is open: the event-delay row of
    thread 5 is not selected. *)
Lemma event_delay_never_selected_witness :
  type (localTrack (sample_own "event-delay" 5)) = "event-delay"
  /\ exists derived,
       mapStateToProps (sample_state {[5]} "calltree" ∅)
                       (sample_own "event-delay" 5) = Normal derived
       /\ isSelected derived = false.
Proof.
  split; [reflexivity |].
  exact (proj2 (event_delay_never_selected (imports := sample_imports) (sample_state {[5]} "calltree" ∅)
                  (sample_own "event-delay" 5) eq_refl)).
Defined.

(** The scenario [{type: "memory", counterIndex: 3}], process 7, track
    index 2, nothing hidden. *)
Lemma counter_title_unselected_witness :
  In (type (localTrack (sample_own "memory" 3)))
     ["memory"; "bandwidth"; "process-cpu"; "power"]
  /\ exists derived,
       mapStateToProps (sample_state {[3]} "calltree" ∅)
                       (sample_own "memory" 3) = Normal derived
       /\ isSelected derived = false
       /\ titleText derived
          = Some (counterDescription (sample_state {[3]} "calltree" ∅) 3).
Proof.
  split; [left; reflexivity |].
  exact (counter_title_unselected (imports := sample_imports) (sample_state {[3]} "calltree" ∅)
           (sample_own "memory" 3) (or_introl eq_refl)).
Defined.

(** Track 2 of process 7 is hidden: the resolver says so for a power
    row, and a hidden row renders the stub. *)
Lemma hidden_iff_and_inert_witness :
  known_type (type (localTrack (sample_own "power" 1))) = true
  /\ isHidden (sample_props "power" 1 true true) = true
  /\ (exists connected,
         connect (sample_state ∅ "calltree" {[2]})
                 (sample_own "power" 1) = Normal connected
         /\ isHidden connected = true
         /\ render connected = (hidden_stub, []))
  /\ render (sample_props "power" 1 true true) = (hidden_stub, [])
  /\ fire (sample_props "power" 1 true true) click close_button sample_event
     = (sample_event, []).
Proof.
  split; [reflexivity |]. split; [reflexivity |].
  destruct (hidden_iff_and_inert (imports := sample_imports)
              (sample_state ∅ "calltree" {[2]})
              (sample_own "power" 1) (sample_props "power" 1 true true)
              eq_refl eq_refl)
    as [[connected [Hc [Hiff Hstub]]] [Hr [_ Hf]]].
  split; [| split; [exact Hr | apply Hf]].
  exists connected. split; [exact Hc |].
  split; [apply Hiff | apply Hstub]; exact (in_singleton 2).
Defined.

(** A 'gpu' descriptor is outside the union: the resolver throws and
    the renderer returns null; a 'power' descriptor is inside: the
    resolver returns. *)
Lemma unknown_variant_policies_witness :
  known_type (type (localTrack (sample_props "gpu" 1 false false))) = false
  /\ known_type (type (localTrack (sample_props "power" 1 false false))) = true
  /\ throws (mapStateToProps (sample_state ∅ "calltree" ∅)
                             (sample_props "gpu" 1 false false))
  /\ result (renderTrack (sample_props "gpu" 1 false false)) = None
  /\ returns (mapStateToProps (sample_state ∅ "calltree" ∅)
                              (sample_props "power" 1 false false)).
Proof.
  split; [reflexivity |]. split; [reflexivity |].
  destruct (unknown_variant_policies (imports := sample_imports) (sample_state ∅ "calltree" ∅)
              (sample_props "gpu" 1 false false)) as [Hout _].
  destruct (unknown_variant_policies (imports := sample_imports) (sample_state ∅ "calltree" ∅)
              (sample_props "power" 1 false false)) as [_ Hin].
  destruct (Hout eq_refl) as [Hthrows Hrender].
  split; [exact Hthrows |]. split; [rewrite Hrender; reflexivity |].
  exact (Hin eq_refl).
Defined.

(** The event-delay row of thread 5. *)
Lemma event_delay_title_witness :
  type (localTrack (sample_own "event-delay" 5)) = "event-delay"
  /\ exists derived,
       mapStateToProps (sample_state {[5]} "calltree" ∅)
                       (sample_own "event-delay" 5) = Normal derived
       /\ titleText derived = Some "Event Delay of Web Content (pid 7)".
Proof.
  split; [reflexivity |].
  exact (event_delay_title (imports := sample_imports) (sample_state {[5]} "calltree" ∅)
           (sample_own "event-delay" 5) eq_refl).
Defined.

(** A click on the close button of a visible thread row. *)
Lemma close_button_hides_only_witness :
  isHidden (sample_props "thread" 5 false false) = false
  /\ fire (sample_props "thread" 5 false false) click close_button sample_event
     = (stopPropagation sample_event, [Issue (hideLocalTrack 7 2)]).
Proof.
  split; [reflexivity |].
  exact (proj1 (proj2 (proj2 (close_button_hides_only (imports := sample_imports)
                                (sample_props "thread" 5 false false)
                                sample_event eq_refl)))).
Defined.

(** The scenario [{type: "thread", threadIndex: 5}] with thread 5
    selected under the call tree tab. *)
Example thread_row_under_calltree :
  mapStateToProps (sample_state {[5]} "calltree" ∅) (sample_own "thread" 5)
  = Normal {| trackName := "Renderer"; isSelected := true; isHidden := false;
              titleText := Some "Web Content (pid 7)" |}.
Proof. vm_compute. reflexivity. Qed.

(** A click on the name button is not stopped: it reaches the row and
    selects the track. *)
Example name_button_click_selects :
  fire (sample_props "thread" 5 false false) click [0%nat; 0%nat; 0%nat]
       sample_event
  = (sample_event,
     [Issue (selectTrackWithModifiers
               {| ref_type := "local"; ref_pid := 7; ref_trackIndex := 2 |}
               {| multi := false; range := false |})]).
Proof. reflexivity. Qed.

(** A right click on the label marks the track as right-clicked. *)
Example label_contextmenu_marks :
  effects (fire (sample_props "thread" 5 false false) contextmenu
                [0%nat; 0%nat] sample_event)
  = [Issue (changeRightClickedTrack
              {| ref_type := "local"; ref_pid := 7; ref_trackIndex := 2 |})].
Proof. reflexivity. Qed.

(** A visible row carries its three handlers. *)
Example visible_row_handlers :
  handlers (result (render (sample_props "memory" 3 false false)))
  = [_selectCurrentTrack; _onContextMenu; _hideCurrentTrack].
Proof. reflexivity. Qed.

(** A row mounted unselected that is selected later and then clicked
    does not notify its parent. *)
Example late_selection_is_silent :
  effects (lifetime (sample_props "thread" 5 false false)
             [receive_props (sample_props "thread" 5 true false);
              user_event click [0%nat] sample_event])
  = [Issue (selectTrackWithModifiers
              {| ref_type := "local"; ref_pid := 7; ref_trackIndex := 2 |}
              {| multi := false; range := false |})].
Proof. reflexivity. Qed.

End SampleRuns.

Section RowEvents.
Context {types : Types} {imports : Imports}.

Lemma renderTrack_leaf (props : Props) (e : Element) :
  result (renderTrack props) = Some e ->
  element_children e = [] /\ element_attributes e = None /\ handlers e = [].
Proof.
  unfold renderTrack.
  repeat match goal with
         | |- context [if ?b then _ else _] => destruct b
         end; simpl; intros [= <-]; repeat split.
Qed.

Lemma renderTrack_known (props : Props) :
  known_type (type (localTrack props)) = true ->
  exists e, renderTrack props = (Some e, []).
Proof.
  rewrite known_type_In. unfold local_track_types. simpl. intros Hty.
  unfold renderTrack.
  repeat destruct Hty as [Hty | Hty]; try contradiction;
    rewrite <- Hty; simpl; eauto.
Qed.

Lemma path_to_leaf (e : Element) (target : list nat) :
  element_children e = [] ->
  path_to target e = match target with [] => Some [e] | _ => None end.
Proof.
  intros Hc. destruct target as [| i rest]; [reflexivity |].
  simpl. rewrite Hc. now destruct i.
Qed.

Ltac live ty event :=
  intros _; destruct ty; unfold bubbling_listeners; simpl;
  destruct (propagationStopped event); reflexivity.
Ltac dead :=
  let Hv := fresh "Hv" in
  intros Hv; exfalso; apply Hv; simpl;
  repeat match goal with
         | |- context [nth_error [] ?i] => destruct i; simpl
         end;
  reflexivity.

Lemma fire_visible (props : Props) (ty : EventType) (target : list nat)
      (event : SyntheticEvent) :
  isHidden props = false ->
  path_to target (result (render props)) <> None ->
  fire props ty target event
  = match ty with
    | click =>
        match target with
        | [] => (event, [])
        | [0; 0; 1; 0]%nat =>
            (stopPropagation event,
             [Issue (hideLocalTrack (pid props) (trackIndex props))])
        | _ =>
            (event,
             [Issue (selectTrackWithModifiers (_getTrackReference props)
                       (getTrackSelectionModifiers event))])
        end
    | contextmenu =>
        (event,
         match target with
         | (0 :: 0 :: _)%nat =>
             [Issue (changeRightClickedTrack (_getTrackReference props))]
         | _ => []
         end)
    end.
Proof.
  intros Hh. unfold fire. rewrite (render_visible props Hh).
  destruct (result (renderTrack props)) as [track |] eqn:Htrack.
  - destruct (renderTrack_leaf _ _ Htrack) as [Hc [Ha _]].
    destruct target as [| [| ?] t1]; [live ty event | | dead].
    destruct t1 as [| [| [| ?]] t2]; [live ty event | | | dead].
    + destruct t2 as [| [| [| ?]] t3]; [live ty event | | | dead].
      * destruct t3 as [| [| ?] t4]; [live ty event | | dead].
        destruct t4 as [| ? ?]; [live ty event | dead].
      * destruct t3 as [| [| ?] t4]; [live ty event | | dead].
        destruct t4 as [| ? ?]; [live ty event | dead].
    + destruct t2 as [| [| ?] t3]; [live ty event | | dead].
      destruct t3 as [| i t4].
      * intros _. simpl. unfold bubbling_listeners. simpl. rewrite Ha.
        destruct ty; simpl; destruct (propagationStopped event); reflexivity.
      * intros Hv. exfalso. apply Hv. simpl. rewrite Hc. now destruct i.
  - destruct target as [| [| ?] t1]; [live ty event | | dead].
    destruct t1 as [| [| [| ?]] t2]; [live ty event | | | dead].
    + destruct t2 as [| [| [| ?]] t3]; [live ty event | | | dead].
      * destruct t3 as [| [| ?] t4]; [live ty event | | dead].
        destruct t4 as [| ? ?]; [live ty event | dead].
      * destruct t3 as [| [| ?] t4]; [live ty event | | dead].
        destruct t4 as [| ? ?]; [live ty event | dead].
    + destruct t2 as [| ? ?]; [live ty event | dead].
Qed.

End RowEvents.

(** ** More on the resolver *)
Section ResolverMore.
Context {types : Types} {imports : Imports}.

Lemma returns_known (state : State) (own : OwnProps) (derived : StateProps) :
  mapStateToProps state own = Normal derived ->
  known_type (type (localTrack own)) = true.
Proof.
  intros Hd. destruct (known_type (type (localTrack own))) eqn:Hk; [reflexivity |].
  rewrite (resolve_unknown _ _ Hk) in Hd.
  destruct (throw_result_throws (A := StateProps)
              (assertExhaustiveCheck (localTrack own) "Unhandled LocalTrack type."))
    as [e He].
  rewrite He in Hd. discriminate.
Qed.

Lemma resolve_name (state : State) (own : OwnProps) (derived : StateProps) :
  mapStateToProps state own = Normal derived ->
  trackName derived = getLocalTrackName state (pid own) (trackIndex own).
Proof.
  unfold mapStateToProps.
  destruct (select_by_type state (localTrack own)) as [[t s] | e]; simpl.
  - intros [= <-]. reflexivity.
  - discriminate.
Qed.

(** The selection flag of any result, in one formula. *)
Lemma resolve_selected (state : State) (own : OwnProps) (derived : StateProps) :
  mapStateToProps state own = Normal derived ->
  isSelected derived
  = has (getSelectedThreadIndexes state) (threadIndex (localTrack own))
    && (if String.eqb (type (localTrack own)) "thread"
        then negb (String.eqb (getSelectedTab state) network_chart)
        else if String.eqb (type (localTrack own)) "network"
        then String.eqb (getSelectedTab state) network_chart
        else if String.eqb (type (localTrack own)) "marker"
                || String.eqb (type (localTrack own)) "ipc"
        then String.eqb (getSelectedTab state) marker_chart
        else false).
Proof.
  unfold mapStateToProps, select_by_type.
  destruct (String.eqb (type (localTrack own)) "thread");
    [simpl; intros [= <-]; reflexivity |].
  destruct (String.eqb (type (localTrack own)) "network");
    [simpl; intros [= <-]; reflexivity |].
  destruct (String.eqb (type (localTrack own)) "marker"
            || String.eqb (type (localTrack own)) "ipc");
    [simpl; intros [= <-]; reflexivity |].
  destruct (String.eqb (type (localTrack own)) "event-delay");
    [simpl; intros [= <-]; symmetry; apply andb_false_r |].
  destruct (String.eqb (type (localTrack own)) "memory"
            || String.eqb (type (localTrack own)) "bandwidth"
            || String.eqb (type (localTrack own)) "process-cpu"
            || String.eqb (type (localTrack own)) "power");
    [simpl; intros [= <-]; symmetry; apply andb_false_r |].
  destruct (assertExhaustiveCheck _ _); simpl; discriminate.
Qed.

(** X7. The thread row and the network row of one thread are never
    both selected, and one of them is selected exactly when the thread
    is in the selected-thread set. *)
Theorem thread_network_exclusive (state : State) (thread_row network_row : OwnProps) :
  type (localTrack thread_row) = "thread" ->
  type (localTrack network_row) = "network" ->
  threadIndex (localTrack thread_row) = threadIndex (localTrack network_row) ->
  exists t n,
    mapStateToProps state thread_row = Normal t
    /\ mapStateToProps state network_row = Normal n
    /\ isSelected t && isSelected n = false
    /\ (isSelected t || isSelected n
        = has (getSelectedThreadIndexes state)
              (threadIndex (localTrack thread_row))).
Proof.
  intros Ht Hn Hidx. do 2 eexists.
  split; [apply resolve_thread, Ht |]. split; [apply resolve_network, Hn |].
  cbn [isSelected]. rewrite <- Hidx.
  destruct (has _ _), (String.eqb _ _); split; reflexivity.
Qed.

(** X8. Whatever the variant, a row comes out selected only if its
    variant is 'thread', 'network', 'marker' or 'ipc' and its thread
    index is in the selected-thread set. *)
Theorem selected_needs_selected_thread
        (state : State) (own : OwnProps) (derived : StateProps) :
  mapStateToProps state own = Normal derived ->
  isSelected derived = true ->
  In (type (localTrack own)) ["thread"; "network"; "marker"; "ipc"]
  /\ threadIndex (localTrack own) ∈ getSelectedThreadIndexes state.
Proof.
  intros Hd Hs. rewrite (resolve_selected _ _ _ Hd) in Hs.
  apply andb_true_iff in Hs. destruct Hs as [Hin Htab].
  split; [| apply has_true, Hin]. simpl.
  destruct (String.eqb (type (localTrack own)) "thread") eqn:E1;
    [apply String.eqb_eq in E1; auto |].
  destruct (String.eqb (type (localTrack own)) "network") eqn:E2;
    [apply String.eqb_eq in E2; auto |].
  destruct (String.eqb (type (localTrack own)) "marker") eqn:E3;
    [apply String.eqb_eq in E3; auto |].
  destruct (String.eqb (type (localTrack own)) "ipc") eqn:E4;
    [apply String.eqb_eq in E4; auto 6 |].
  simpl in Htab. discriminate.
Qed.

(** X9. When the marker (or ipc) row of a thread is selected, the
    thread row of the same thread is selected too and its network row
    is not. *)
Theorem marker_selected_implies_thread_selected
        (state : State) (marker_row thread_row network_row : OwnProps)
        (m t n : StateProps) :
  type (localTrack marker_row) = "marker" \/ type (localTrack marker_row) = "ipc" ->
  type (localTrack thread_row) = "thread" ->
  type (localTrack network_row) = "network" ->
  threadIndex (localTrack thread_row) = threadIndex (localTrack marker_row) ->
  threadIndex (localTrack network_row) = threadIndex (localTrack marker_row) ->
  mapStateToProps state marker_row = Normal m ->
  mapStateToProps state thread_row = Normal t ->
  mapStateToProps state network_row = Normal n ->
  isSelected m = true ->
  isSelected t = true /\ isSelected n = false.
Proof.
  intros Hm Ht Hn Hit Hin Rm Rt Rn Hs.
  rewrite (resolve_marker_ipc _ _ Hm) in Rm. injection Rm as <-.
  rewrite (resolve_thread _ _ Ht) in Rt. injection Rt as <-.
  rewrite (resolve_network _ _ Hn) in Rn. injection Rn as <-.
  cbn [isSelected] in *. rewrite Hit, Hin.
  apply andb_true_iff in Hs. destruct Hs as [-> Htab].
  apply String.eqb_eq in Htab. rewrite Htab. split; reflexivity.
Qed.

(** X10. The name and the hidden flag of a row depend on its identity
    (pid, trackIndex) only: two descriptors of whatever variants at the
    same identity resolve to the same name and the same flag. *)
Theorem name_hidden_by_identity
        (state : State) (own1 own2 : OwnProps) (d1 d2 : StateProps) :
  pid own1 = pid own2 ->
  trackIndex own1 = trackIndex own2 ->
  mapStateToProps state own1 = Normal d1 ->
  mapStateToProps state own2 = Normal d2 ->
  trackName d1 = trackName d2 /\ isHidden d1 = isHidden d2.
Proof.
  intros Hp Hk R1 R2.
  rewrite (resolve_name _ _ _ R1), (resolve_name _ _ _ R2).
  rewrite (resolve_hidden _ _ _ R1), (resolve_hidden _ _ _ R2).
  rewrite Hp, Hk. split; reflexivity.
Qed.

(** X12. The resolver reads only the fields of the descriptor's own
    variant: two descriptors of one known variant at one identity give
    the same result as soon as they agree on the counter index (counter
    variants) or on the thread index (the other variants). *)
Theorem resolver_reads_own_fields (state : State) (own1 own2 : OwnProps) :
  known_type (type (localTrack own1)) = true ->
  type (localTrack own1) = type (localTrack own2) ->
  pid own1 = pid own2 ->
  trackIndex own1 = trackIndex own2 ->
  (if existsb (String.eqb (type (localTrack own1)))
              ["memory"; "bandwidth"; "process-cpu"; "power"]
   then counterIndex (localTrack own1) = counterIndex (localTrack own2)
   else threadIndex (localTrack own1) = threadIndex (localTrack own2)) ->
  mapStateToProps state own1 = mapStateToProps state own2.
Proof.
  intros Hk Hty Hp Hi Hidx.
  apply known_type_In in Hk. unfold local_track_types in Hk. simpl in Hk.
  repeat destruct Hk as [Hk | Hk]; try contradiction;
    symmetry in Hk; pose proof Hk as Hk2; rewrite Hty in Hk2;
    rewrite Hk in Hidx; simpl in Hidx.
  - rewrite !resolve_thread by assumption. now rewrite Hp, Hi, Hidx.
  - rewrite !resolve_network by assumption. now rewrite Hp, Hi, Hidx.
  - rewrite !resolve_counter by (rewrite ?Hk, ?Hk2; simpl; tauto).
    now rewrite Hp, Hi, Hidx.
  - rewrite !resolve_counter by (rewrite ?Hk, ?Hk2; simpl; tauto).
    now rewrite Hp, Hi, Hidx.
  - rewrite !resolve_marker_ipc by tauto. now rewrite Hp, Hi, Hidx.
  - rewrite !resolve_event_delay by assumption. now rewrite Hp, Hi, Hidx.
  - rewrite !resolve_counter by (rewrite ?Hk, ?Hk2; simpl; tauto).
    now rewrite Hp, Hi, Hidx.
  - rewrite !resolve_counter by (rewrite ?Hk, ?Hk2; simpl; tauto).
    now rewrite Hp, Hi, Hidx.
  - rewrite !resolve_marker_ipc by tauto. now rewrite Hp, Hi, Hidx.
Qed.

End ResolverMore.

(** ** More on the rendered row and its events *)
Section RowMore.
Context {types : Types} {imports : Imports}.

Lemma fire_hidden (props : Props) (ty : EventType) (target : list nat)
      (event : SyntheticEvent) :
  isHidden props = true -> fire props ty target event = (event, []).
Proof.
  intros Hh. unfold fire. rewrite (render_hidden _ Hh). unfold result, fst.
  destruct (path_to_hidden_stub target) as [-> | ->]; [| reflexivity].
  destruct ty; reflexivity.
Qed.

(** What one event can do to the log and to the event. *)
Lemma fire_cases (props : Props) (ty : EventType) (target : list nat)
      (event : SyntheticEvent) :
  fire props ty target event = (event, [])
  \/ fire props ty target event
     = (stopPropagation event,
        [Issue (hideLocalTrack (pid props) (trackIndex props))])
  \/ fire props ty target event
     = (event,
        [Issue (selectTrackWithModifiers (_getTrackReference props)
                  (getTrackSelectionModifiers event))])
  \/ fire props ty target event
     = (event, [Issue (changeRightClickedTrack (_getTrackReference props))]).
Proof.
  destruct (isHidden props) eqn:Hh; [left; apply fire_hidden, Hh |].
  destruct (path_to target (result (render props))) eqn:Hp.
  - rewrite (fire_visible props ty target event Hh) by (rewrite Hp; discriminate).
    destruct ty.
    + destruct target as [| [| ?] [| [| ?] [| [| [| ?]] [| [| ?] [| ? ?]]]]]; auto.
    + destruct target as [| [| ?] [| [| ?] ?]]; auto.
  - left. unfold fire. rewrite Hp. reflexivity.
Qed.

(** X1. The dispatch renderer returns an element, and logs nothing,
    exactly on the nine tags of the union. *)
Theorem renderTrack_element_iff_known (props : Props) :
  known_type (type (localTrack props)) = true
  <-> exists e, renderTrack props = (Some e, []).
Proof.
  split; [apply renderTrack_known |].
  intros [e He].
  destruct (known_type (type (localTrack props))) eqn:Hk; [reflexivity |].
  rewrite (renderTrack_unknown _ Hk) in He. discriminate.
Qed.

(** X2. A click on a node of a visible row: on the [li] itself it does
    nothing; on the close button it issues the hide command and stops
    the event; on every other node it issues exactly one select-track
    command, for this row's reference and the modifiers of the event,
    and leaves the event as it was. *)
Theorem row_click (props : Props) (target : list nat) (event : SyntheticEvent) :
  isHidden props = false ->
  path_to target (result (render props)) <> None ->
  fire props click target event
  = match target with
    | [] => (event, [])
    | [0; 0; 1; 0]%nat =>
        (stopPropagation event,
         [Issue (hideLocalTrack (pid props) (trackIndex props))])
    | _ =>
        (event,
         [Issue (selectTrackWithModifiers
                   {| ref_type := "local"; ref_pid := pid props;
                      ref_trackIndex := trackIndex props |}
                   (getTrackSelectionModifiers event))])
    end.
Proof. intros Hh Hv. apply (fire_visible props click target event Hh Hv). Qed.


(** X4. Whatever the props, the event type, the target and the event,
    one event issues at most one command, every command it issues is
    about this row (its pid and track index), nothing is logged to the
    console, and the event comes back unchanged or with its propagation
    stopped. *)
Theorem one_event_one_command (props : Props) (ty : EventType)
        (target : list nat) (event : SyntheticEvent) :
  (length (effects (fire props ty target event)) <= 1)%nat
  /\ Forall (fun e =>
               e = Issue (hideLocalTrack (pid props) (trackIndex props))
               \/ e = Issue (selectTrackWithModifiers
                               {| ref_type := "local"; ref_pid := pid props;
                                  ref_trackIndex := trackIndex props |}
                               (getTrackSelectionModifiers event))
               \/ e = Issue (changeRightClickedTrack
                               {| ref_type := "local"; ref_pid := pid props;
                                  ref_trackIndex := trackIndex props |}))
            (effects (fire props ty target event))
  /\ (result (fire props ty target event) = event
      \/ result (fire props ty target event) = stopPropagation event).
Proof.
  unfold effects, result.
  destruct (fire_cases props ty target event) as [-> | [-> | [-> | ->]]];
    simpl; (split; [lia |]); split.
  - constructor.
  - left. reflexivity.
  - constructor; [left; reflexivity | constructor].
  - right. reflexivity.
  - constructor; [right; left; reflexivity | constructor].
  - left. reflexivity.
  - constructor; [right; right; reflexivity | constructor].
  - left. reflexivity.
Qed.

Lemma commands_app (l1 l2 : list Effect) :
  commands (l1 ++ l2) = commands l1 ++ commands l2.
Proof. apply List.filter_app. Qed.

Lemma render_no_command (props : Props) : commands (effects (render props)) = [].
Proof. destruct (render_effects props) as [-> | ->]; reflexivity. Qed.

Lemma fire_commands_length (props : Props) (ty : EventType)
      (target : list nat) (event : SyntheticEvent) :
  (length (commands (effects (fire props ty target event))) <= 1)%nat.
Proof.
  destruct (fire_cases props ty target event) as [-> | [-> | [-> | ->]]];
    simpl; lia.
Qed.

Lemma steps_commands_length (ss : list Stimulus) :
  forall props,
    (length (commands (effects (steps props ss)))
     <= length (List.filter is_user_event ss))%nat.
Proof.
  induction ss as [| s rest IH]; intros props; simpl; [lia |].
  rewrite effects_bind, commands_app, length_app.
  specialize (IH (result (step props s))).
  destruct s as [props' | ty target event]; simpl.
  - rewrite effects_bind, commands_app, render_no_command. simpl.
    simpl in IH. lia.
  - rewrite effects_bind, commands_app, length_app. simpl.
    pose proof (fire_commands_length props ty target event).
    simpl in IH. lia.
Qed.

(** X5. Over the life of a row the number of commands it issues is at
    most the number of user events it received: mounting and rendering
    on new props issue none. *)
Theorem commands_bounded_by_user_events (props : Props) (ss : list Stimulus) :
  (length (commands (effects (lifetime props ss)))
   <= length (List.filter is_user_event ss))%nat.
Proof.
  unfold lifetime, mount.
  rewrite !effects_bind, !commands_app, !length_app, !result_bind.
  rewrite render_no_command.
  assert (Hm : commands (effects (componentDidMount props)) = [])
    by (unfold componentDidMount; destruct (isSelected props); reflexivity).
  rewrite Hm. simpl.
  pose proof (steps_commands_length ss props). simpl in *. lia.
Qed.

(** X6. The two switches agree: props that come out of the connected
    resolver never reach the renderer's default branch, so rendering
    them logs nothing and a visible row always gets a track element. *)
Theorem connected_row_renders_track
        (state : State) (own : OwnProps) (props : Props) :
  connect state own = Normal props ->
  effects (render props) = []
  /\ exists track, renderTrack props = (Some track, []).
Proof.
  intros Hc. apply connect_Normal in Hc. destruct Hc as [derived [Hd ->]].
  pose proof (returns_known _ _ _ Hd) as Hk.
  destruct (renderTrack_known {| own := own; derived := derived |} Hk)
    as [track Ht].
  split; [| eauto].
  unfold render. destruct (isHidden _); [reflexivity |].
  rewrite effects_bind, Ht. reflexivity.
Qed.

Lemma track_handlers (props : Props) :
  flat_map handlers (child_of (result (renderTrack props))) = [].
Proof.
  destruct (result (renderTrack props)) as [track |] eqn:Ht; [| reflexivity].
  simpl. destruct (renderTrack_leaf _ _ Ht) as [_ [_ ->]]. reflexivity.
Qed.

(** X11. Handlers are attached exactly to visible rows: a hidden row
    carries none, a visible row carries the select, context-menu and
    hide handlers once each, whatever its descriptor and selection. *)
Theorem handlers_iff_visible (props : Props) :
  handlers (result (render props))
  = if isHidden props then []
    else [_selectCurrentTrack; _onContextMenu; _hideCurrentTrack].
Proof.
  destruct (isHidden props) eqn:Hh.
  - rewrite (render_hidden _ Hh). reflexivity.
  - rewrite (render_visible _ Hh). simpl. rewrite app_nil_r.
    rewrite track_handlers. reflexivity.
Qed.

End RowMore.

(** ** The further theorems at work on the sample store *)
Section SampleRunsMore.
#[local] Existing Instance sample_types.
#[local] Existing Instance sample_imports.

(** A plain click on the track area of a visible thread row. *)
Lemma row_click_witness :
  isHidden (sample_props "thread" 5 false false) = false
  /\ path_to [0; 1; 0]%nat (result (render (sample_props "thread" 5 false false)))
     <> None
  /\ fire (sample_props "thread" 5 false false) click [0; 1; 0]%nat sample_event
     = (sample_event,
        [Issue (selectTrackWithModifiers
                  {| ref_type := "local"; ref_pid := 7; ref_trackIndex := 2 |}
                  {| multi := false; range := false |})]).
Proof.
  split; [reflexivity |]. split; [simpl; discriminate |].
  apply (row_click (imports := sample_imports)
           (sample_props "thread" 5 false false) [0; 1; 0]%nat sample_event).
  - reflexivity.
  - simpl. discriminate.
Defined.


(** The connected bandwidth row of counter 3. *)
Lemma connected_row_renders_track_witness :
  connect (sample_state ∅ "calltree" ∅) (sample_own "bandwidth" 3)
  = Normal {| own := sample_own "bandwidth" 3;
              derived := {| trackName := "Renderer"; isSelected := false;
                            isHidden := false;
                            titleText := Some "Amount of allocated memory" |} |}
  /\ effects (render {| own := sample_own "bandwidth" 3;
                        derived := {| trackName := "Renderer";
                                      isSelected := false; isHidden := false;
                                      titleText := Some "Amount of allocated memory" |} |})
     = [].
Proof.
  assert (Hc : connect (sample_state ∅ "calltree" ∅) (sample_own "bandwidth" 3)
               = Normal {| own := sample_own "bandwidth" 3;
                           derived := {| trackName := "Renderer";
                                         isSelected := false; isHidden := false;
                                         titleText := Some "Amount of allocated memory" |} |})
    by (vm_compute; reflexivity).
  split; [exact Hc |].
  exact (proj1 (connected_row_renders_track (imports := sample_imports) _ _ _ Hc)).
Defined.

(** Thread 5 is selected under the call tree: of its thread row and its
    network row, one is selected. *)
Lemma thread_network_exclusive_witness :
  type (localTrack (sample_own "thread" 5)) = "thread"
  /\ type (localTrack (sample_own "network" 5)) = "network"
  /\ exists t n,
       mapStateToProps (sample_state {[5]} "calltree" ∅) (sample_own "thread" 5)
       = Normal t
       /\ mapStateToProps (sample_state {[5]} "calltree" ∅) (sample_own "network" 5)
          = Normal n
       /\ isSelected t && isSelected n = false
       /\ isSelected t || isSelected n = true.
Proof.
  split; [reflexivity |]. split; [reflexivity |].
  destruct (thread_network_exclusive (imports := sample_imports)
              (sample_state {[5]} "calltree" ∅)
              (sample_own "thread" 5) (sample_own "network" 5)
              eq_refl eq_refl eq_refl) as [t [n [Ht [Hn [Hand Hor]]]]].
  exists t, n.
  split; [exact Ht |]. split; [exact Hn |]. split; [exact Hand |].
  rewrite Hor. apply has_true. exact (in_singleton 5).
Defined.

(** The selected ipc row of thread 5 under the marker chart. *)
Lemma selected_needs_selected_thread_witness :
  mapStateToProps (sample_state {[5]} "marker-chart" ∅) (sample_own "ipc" 5)
  = Normal {| trackName := "Renderer"; isSelected := true; isHidden := false;
              titleText := None |}
  /\ In (type (localTrack (sample_own "ipc" 5)))
        ["thread"; "network"; "marker"; "ipc"]
  /\ (5 : Z) ∈ ({[5]} : gset Z).
Proof.
  assert (Hd : mapStateToProps (sample_state {[5]} "marker-chart" ∅)
                               (sample_own "ipc" 5)
               = Normal {| trackName := "Renderer"; isSelected := true;
                           isHidden := false; titleText := None |})
    by (vm_compute; reflexivity).
  split; [exact Hd |].
  exact (selected_needs_selected_thread (imports := sample_imports)
           _ _ _ Hd eq_refl).
Defined.

(** Thread 5 under the marker chart: marker row and thread row selected,
    network row not. *)
Lemma marker_selected_implies_thread_selected_witness :
  exists m t n,
    mapStateToProps (sample_state {[5]} "marker-chart" ∅) (sample_own "marker" 5)
    = Normal m
    /\ mapStateToProps (sample_state {[5]} "marker-chart" ∅) (sample_own "thread" 5)
       = Normal t
    /\ mapStateToProps (sample_state {[5]} "marker-chart" ∅) (sample_own "network" 5)
       = Normal n
    /\ isSelected m = true
    /\ isSelected t = true
    /\ isSelected n = false.
Proof.
  exists {| trackName := "Renderer"; isSelected := true; isHidden := false;
            titleText := None |},
         {| trackName := "Renderer"; isSelected := true; isHidden := false;
            titleText := Some "Web Content (pid 7)" |},
         {| trackName := "Renderer"; isSelected := false; isHidden := false;
            titleText := None |}.
  assert (Hm : mapStateToProps (sample_state {[5]} "marker-chart" ∅)
                               (sample_own "marker" 5)
               = Normal {| trackName := "Renderer"; isSelected := true;
                           isHidden := false; titleText := None |})
    by (vm_compute; reflexivity).
  assert (Ht : mapStateToProps (sample_state {[5]} "marker-chart" ∅)
                               (sample_own "thread" 5)
               = Normal {| trackName := "Renderer"; isSelected := true;
                           isHidden := false;
                           titleText := Some "Web Content (pid 7)" |})
    by (vm_compute; reflexivity).
  assert (Hn : mapStateToProps (sample_state {[5]} "marker-chart" ∅)
                               (sample_own "network" 5)
               = Normal {| trackName := "Renderer"; isSelected := false;
                           isHidden := false; titleText := None |})
    by (vm_compute; reflexivity).
  split; [exact Hm |]. split; [exact Ht |]. split; [exact Hn |].
  split; [reflexivity |].
  exact (marker_selected_implies_thread_selected (imports := sample_imports)
           (sample_state {[5]} "marker-chart" ∅)
           (sample_own "marker" 5) (sample_own "thread" 5)
           (sample_own "network" 5) _ _ _
           (or_introl eq_refl) eq_refl eq_refl eq_refl eq_refl
           Hm Ht Hn eq_refl).
Defined.

(** A thread row and a power row at the identity (7, 2), track 2 being
    hidden. *)
Lemma name_hidden_by_identity_witness :
  exists d1 d2,
    mapStateToProps (sample_state ∅ "calltree" {[2]}) (sample_own "thread" 5)
    = Normal d1
    /\ mapStateToProps (sample_state ∅ "calltree" {[2]}) (sample_own "power" 1)
       = Normal d2
    /\ trackName d1 = trackName d2
    /\ isHidden d1 = isHidden d2.
Proof.
  exists {| trackName := "Renderer"; isSelected := false; isHidden := true;
            titleText := Some "Web Content (pid 7)" |},
         {| trackName := "Renderer"; isSelected := false; isHidden := true;
            titleText := Some "Amount of allocated memory" |}.
  assert (H1 : mapStateToProps (sample_state ∅ "calltree" {[2]})
                               (sample_own "thread" 5)
               = Normal {| trackName := "Renderer"; isSelected := false;
                           isHidden := true;
                           titleText := Some "Web Content (pid 7)" |})
    by (vm_compute; reflexivity).
  assert (H2 : mapStateToProps (sample_state ∅ "calltree" {[2]})
                               (sample_own "power" 1)
               = Normal {| trackName := "Renderer"; isSelected := false;
                           isHidden := true;
                           titleText := Some "Amount of allocated memory" |})
    by (vm_compute; reflexivity).
  split; [exact H1 |]. split; [exact H2 |].
  exact (name_hidden_by_identity (imports := sample_imports)
           (sample_state ∅ "calltree" {[2]})
           (sample_own "thread" 5) (sample_own "power" 1) _ _
           eq_refl eq_refl H1 H2).
Defined.

(** Two memory descriptors of counter 3 that differ in every field the
    memory case does not read. *)
Lemma resolver_reads_own_fields_witness :
  mapStateToProps (sample_state {[5]} "calltree" ∅)
    {| pid := 7; trackIndex := 2; style := None;
       localTrack := {| type := "memory"; threadIndex := 5; counterIndex := 3;
                        markerSchema := "a"; markerName := "b" |} |}
  = mapStateToProps (sample_state {[5]} "calltree" ∅)
      {| pid := 7; trackIndex := 2; style := Some "top: 0";
         localTrack := {| type := "memory"; threadIndex := 9; counterIndex := 3;
                          markerSchema := "c"; markerName := "d" |} |}.
Proof.
  apply (resolver_reads_own_fields (imports := sample_imports)).
  - reflexivity.
  - reflexivity.
  - reflexivity.
  - reflexivity.
  - simpl. reflexivity.
Defined.

End SampleRunsMore.
